(** * Notes service (src/app.py): a shallow embedding of the five Flask
    handlers over the [note] table, and the properties of its CRUD
    behaviour.

    The handlers are written in a small state-and-exception monad over the
    SQLAlchemy session, one monadic line per source line.  The collaborators
    (Python values, the session, the SQLite table, Flask's dispatch) are
    modelled as far as the handlers observe them. *)

From Stdlib Require Import ZArith List String Ascii Bool Lia DecimalString.
From Stdlib Require Import Sorting.Sorted DecimalPos.
Import ListNotations.
Local Open Scope Z_scope.
Local Open Scope list_scope.

(** ** Python values and exceptions *)

(** What [request.json] can evaluate to, plus the [datetime] read from the
    [data] column.  JSON numbers are the integral ones; a str is the bytes
    of its UTF-8 encoding; a dict is the list of its entries, looked up
    from the front. *)
#[warnings="-register-all"]
Inductive value : Type :=
| VNone
| VBool (b : bool)
| VInt (n : Z)
| VStr (s : string)
| VList (items : list value)
| VDict (entries : list (string * value))
| VDateTime (t : Z).

Inductive exn : Type :=
| TypeError
| AttributeError
| KeyError
| BadRequest              (* werkzeug HTTPException raised by request.json *)
| UnmappedInstanceError   (* sqlalchemy.orm.exc, session.add/delete of None *)
| InvalidRequestError     (* sqlalchemy.exc, delete of a non-persistent instance *)
| ObjectDeletedError      (* sqlalchemy.orm.exc, refresh of a vanished row *)
| InterfaceError          (* DB-API: a parameter of unsupported type *)
| OverflowError           (* DB-API: an int outside SQLite's 64 bits *)
| IntegrityError.

Definition result (A : Type) : Type := (exn + A)%type.

(** [except IntegrityError] and [except Exception]. *)
Definition is_IntegrityError (e : exn) : bool :=
  match e with IntegrityError => true | _ => false end.
Definition is_Exception (_ : exn) : bool := true.

(** [bool(v)], as used by [not new_note]. *)
Definition truthy (v : value) : bool :=
  match v with
  | VNone => false
  | VBool b => b
  | VInt n => negb (n =? 0)
  | VStr s => negb (String.eqb s EmptyString)
  | VList items => match items with [] => false | _ :: _ => true end
  | VDict entries => match entries with [] => false | _ :: _ => true end
  | VDateTime _ => true
  end.

Fixpoint dict_lookup (k : string) (d : list (string * value)) : option value :=
  match d with
  | [] => None
  | (k', v) :: d' => if String.eqb k' k then Some v else dict_lookup k d'
  end.

(** [p in s] on two strings. *)
Fixpoint substring_of (p s : string) : bool :=
  String.prefix p s ||
  match s with
  | EmptyString => false
  | String _ s' => substring_of p s'
  end.

Definition is_str (k : string) (v : value) : bool :=
  match v with VStr s => String.eqb s k | _ => false end.

(** [k in v] for a string [k]: key membership on a dict, element membership
    on a list, substring on a string, TypeError on what is not iterable. *)
Definition py_in (k : string) (v : value) : result bool :=
  match v with
  | VDict d => inr (match dict_lookup k d with Some _ => true | None => false end)
  | VList items => inr (existsb (is_str k) items)
  | VStr s => inr (substring_of k s)
  | _ => inl TypeError
  end.

(** [v[k]] for a string [k]. *)
Definition py_getitem (v : value) (k : string) : result value :=
  match v with
  | VDict d => match dict_lookup k d with Some x => inr x | None => inl KeyError end
  | _ => inl TypeError
  end.

(** [d.get(k)] on a dict: None for a key that is not there. *)
Definition dict_get (d : list (string * value)) (k : string) : value :=
  match dict_lookup k d with Some x => x | None => VNone end.

(** [v.get(k)]: only a dict has the method. *)
Definition py_get (v : value) (k : string) : result value :=
  match v with
  | VDict d => inr (dict_get d k)
  | _ => inl AttributeError
  end.

(** [str(n)]. *)
Definition str_of_int (n : Z) : string := NilZero.string_of_int (Z.to_int n).

(** ** The [note] table (SQLite) *)

(** A column of type String: NULL or text.  SQLite does not enforce the
    declared lengths 30 and 255. *)
Definition cell : Type := option string.

Record row : Type := mkRow {
  col_note_id : Z;
  col_title : cell;
  col_text : cell;
  col_data : Z
}.

Definition table : Type := list row.

(** Binding a Python value to a parameter of a String column: None is
    NULL, a string is itself, an int (a bool is one) that fits 64 bits is
    rendered as text by the column's TEXT affinity, and the driver refuses
    a list or a dict.  No request carries a datetime; the model refuses it
    as well. *)
Definition bind_param (v : value) : result cell :=
  match v with
  | VNone => inr None
  | VStr s => inr (Some s)
  | VInt n => if (- 2 ^ 63 <=? n) && (n <? 2 ^ 63)
              then inr (Some (str_of_int n))
              else inl OverflowError
  | VBool b => inr (Some (if b then "1" else "0")%string)
  | VList _ | VDict _ | VDateTime _ => inl InterfaceError
  end.

(** What SQLite's driver takes as an INTEGER parameter: 64 bits, signed. *)
Definition fits_int64 (n : Z) : bool := (- 2 ^ 63 <=? n) && (n <? 2 ^ 63).

(** INTEGER PRIMARY KEY without AUTOINCREMENT: the new rowid is one more
    than the largest in the table, and 1 on an empty table.  Rowids are
    unbounded here. *)
Fixpoint max_rowid (t : table) : option Z :=
  match t with
  | [] => None
  | r :: t' => Some (match max_rowid t' with
                     | Some m => Z.max (col_note_id r) m
                     | None => col_note_id r
                     end)
  end.
Definition next_rowid (t : table) : Z :=
  match max_rowid t with Some m => m + 1 | None => 1 end.

Definition has_key (k : Z) (r : row) : bool := col_note_id r =? k.

Definition select_by_key (k : Z) (t : table) : option row := find (has_key k) t.

Definition update_row (k : Z) (ti te : cell) (t : table) : table :=
  map (fun r => if has_key k r
                then mkRow (col_note_id r) ti te (col_data r)
                else r) t.

Definition delete_row (k : Z) (t : table) : table :=
  filter (fun r => negb (has_key k r)) t.

Definition insert_row (ti te : cell) (now : Z) (t : table) : table :=
  t ++ [mkRow (next_rowid t) ti te now].

(** ** The ORM class and the session *)

(** An instance of [class Note(db.Model)]: attributes hold Python values; a
    transient instance built by [Note(title=.., text=..)] has [note_id] and
    [data] None until it is flushed. *)
Record Note : Type := mkNote {
  note_id : value;
  title : value;
  text : value;
  data : value
}.

Definition value_of_cell (c : cell) : value :=
  match c with Some s => VStr s | None => VNone end.

Definition load (r : row) : Note :=
  mkNote (VInt (col_note_id r)) (value_of_cell (col_title r))
         (value_of_cell (col_text r)) (VDateTime (col_data r)).

(** [Note(title=ti, text=te)]. *)
Definition Note_new (ti te : value) : Note := mkNote VNone ti te VNone.

Inductive change : Type :=
| Insert (n : Note)
| Update (k : Z) (n : Note)
| Delete (k : Z).

(** The request-scoped session: the committed table, the unit of work not
    yet flushed, and the clock read by [func.now()]. *)
Record session : Type := mkSession {
  stored : table;
  pending : list change;
  clock : Z
}.

Definition apply_change (now : Z) (c : change) (t : table) : result table :=
  match c with
  | Insert n =>
      match bind_param (title n), bind_param (text n) with
      | inr ti, inr te => inr (insert_row ti te now t)
      | inl e, _ => inl e
      | _, inl e => inl e
      end
  | Update k n =>
      match bind_param (title n), bind_param (text n) with
      | inr ti, inr te => inr (update_row k ti te t)
      | inl e, _ => inl e
      | _, inl e => inl e
      end
  | Delete k => inr (delete_row k t)
  end.

Fixpoint flush (now : Z) (cs : list change) (t : table) : result table :=
  match cs with
  | [] => inr t
  | c :: cs' =>
      match apply_change now c t with
      | inr t' => flush now cs' t'
      | inl e => inl e
      end
  end.

(** ** The handler monad *)

Definition M (A : Type) : Type := session -> result A * session.

Definition ret {A} (a : A) : M A := fun s => (inr a, s).
Definition raise {A} (e : exn) : M A := fun s => (inl e, s).
Definition bind {A B} (m : M A) (f : A -> M B) : M B :=
  fun s => match m s with
           | (inr a, s') => f a s'
           | (inl e, s') => (inl e, s')
           end.
Definition lift {A} (r : result A) : M A := fun s => (r, s).

(** [try: body except E: handler], [E] given by its membership test. *)
Definition try_except {A} (body : M A) (catches : exn -> bool) (handler : M A) : M A :=
  fun s => match body s with
           | (inl e, s') => if catches e then handler s' else (inl e, s')
           | ok => ok
           end.

Declare Scope handler_scope.
Delimit Scope handler_scope with handler.
Notation "x <- m ;; k" := (bind m (fun x => k))
  (at level 61, m at next level, right associativity) : handler_scope.
Notation "m ;; k" := (bind m (fun _ => k))
  (at level 61, right associativity) : handler_scope.
Local Open Scope handler_scope.

(** [Note.query.all()]. *)
Definition query_all : M (list Note) :=
  fun s => (inr (map load (stored s)), s).

(** [Note.query.get(k)]: the instance of the row under [k], or None.  The
    key is a parameter of the SELECT, and the driver raises OverflowError
    on one outside 64 bits instead of running the statement.  A table
    SQLite holds has no row under such a key; the tables here do not bound
    their keys, so the refusal stands where the key has no row, which on a
    table SQLite holds is every lookup of such a key. *)
Definition query_get (k : Z) : M (option Note) :=
  fun s => match select_by_key k (stored s) with
           | Some r => (inr (Some (load r)), s)
           | None => if fits_int64 k then (inr None, s)
                     else (inl OverflowError, s)
           end.

Definition stage (c : change) : M unit :=
  fun s => (inr tt, mkSession (stored s) (pending s ++ [c]) (clock s)).

(** [db.session.add(note)]: a transient instance is queued for INSERT, a
    persistent one carries its modified attributes to the next flush. *)
Definition session_add (o : option Note) : M unit :=
  match o with
  | None => raise UnmappedInstanceError
  | Some n => match note_id n with
              | VInt k => stage (Update k n)
              | _ => stage (Insert n)
              end
  end.

(** [db.session.delete(note)]. *)
Definition session_delete (o : option Note) : M unit :=
  match o with
  | None => raise UnmappedInstanceError
  | Some n => match note_id n with
              | VInt k => stage (Delete k)
              | _ => raise InvalidRequestError
              end
  end.

(** [db.session.commit()]: the unit of work is flushed in one transaction;
    a failure rolls it back and raises. *)
Definition session_commit : M unit :=
  fun s => match flush (clock s) (pending s) (stored s) with
           | inr t' => (inr tt, mkSession t' [] (clock s))
           | inl e => (inl e, mkSession (stored s) [] (clock s))
           end.

(** Attribute access through a reference that may be None. *)
Definition deref (o : option Note) : M Note :=
  match o with
  | None => raise AttributeError
  | Some n => ret n
  end.

(** Attribute assignment [note.text = v] and [note.title = v]. *)
Definition set_text (o : option Note) (v : value) : M (option Note) :=
  n <- deref o ;; ret (Some (mkNote (note_id n) (title n) v (data n))).
Definition set_title (o : option Note) (v : value) : M (option Note) :=
  n <- deref o ;; ret (Some (mkNote (note_id n) v (text n) (data n))).

(** Attribute access after a commit: the instance is expired and read back
    from its row. *)
Definition refresh (o : option Note) : M Note :=
  n <- deref o ;;
  match note_id n with
  | VInt k => fun s => match select_by_key k (stored s) with
                       | Some r => (inr (load r), s)
                       | None => (inl ObjectDeletedError, s)
                       end
  | _ => ret n
  end.

(** ** Flask: requests, view return values, dispatch *)

(** [request.json] either evaluates to a value (None for the body
    [null]) or raises, on a body that is missing, is not declared as JSON
    or does not parse. *)
Record request : Type := mkRequest { json : result value }.

Definition request_json (req : request) : M value := lift (json req).

Inductive view_rv : Type :=
| RvNone                               (* the view fell off its end *)
| RvBody (body : value)                (* return body *)
| RvPair (body : value) (status : Z).  (* return body, status *)

Definition jsonify (v : value) : value := v.

Inductive outcome : Type :=
| Response (body : value) (status : Z)
| Unhandled (e : exn).

Definition make_response (rv : view_rv) : outcome :=
  match rv with
  | RvNone => Unhandled TypeError
  | RvBody body => Response body 200
  | RvPair body status => Response body status
  end.

Definition status_of (o : outcome) : Z :=
  match o with
  | Response _ status => status
  | Unhandled BadRequest => 400
  | Unhandled _ => 500
  end.

(** One request: the view runs in a fresh session over the committed table;
    what it did not commit is discarded with the session. *)
Definition serve (view : M view_rv) (now : Z) (db : table) : outcome * table :=
  match view (mkSession db [] now) with
  | (inr rv, s) => (make_response rv, stored s)
  | (inl e, s) => (Unhandled e, stored s)
  end.

(** ** The views *)

Definition note_dict (n : Note) : value :=
  VDict [("note_id"%string, note_id n);
         ("title"%string, title n);
         ("text"%string, text n);
         ("data"%string, data n)].

(** [GET /notes/] *)
Definition index : M view_rv :=
  notes <- query_all ;;
  ret (RvBody (jsonify (VList (map note_dict notes)))).

(** [GET /notes/<int:note_id>] *)
Definition note_by_note_id (k : Z) : M view_rv :=
  note <- query_get k ;;
  n <- deref note ;;
  ret (RvPair (jsonify (note_dict n)) 200).

Definition invalid_request : value :=
  VDict [("error"%string, VStr "invalid note ID request")].
Definition already_exists : value :=
  VDict [("error"%string, VStr "already exists")].
Definition message_error : value :=
  VDict [("message"%string, VStr "error")].

(** [not new_note or "text" not in new_note or "title" not in new_note],
    with Python's short-circuit evaluation. *)
Definition invalid_body (new_note : value) : result bool :=
  if negb (truthy new_note) then inr true
  else match py_in "text" new_note with
       | inl e => inl e
       | inr false => inr true
       | inr true =>
           match py_in "title" new_note with
           | inl e => inl e
           | inr b => inr (negb b)
           end
       end.

(** [POST /notes] *)
Definition register (req : request) : M view_rv :=
  new_note <- request_json req ;;
  bad <- lift (invalid_body new_note) ;;
  if bad then ret (RvPair (jsonify invalid_request) 400)
  else
    try_except
      (ti <- lift (py_getitem new_note "title") ;;
       te <- lift (py_getitem new_note "text") ;;
       session_add (Some (Note_new ti te)) ;;
       session_commit ;;
       ret RvNone)
      is_IntegrityError
      (ret (RvBody (jsonify already_exists))).

(** [PUT /notes/<int:note_id>] *)
Definition put (k : Z) (req : request) : M view_rv :=
  try_except
    (note <- query_get k ;;
     req_json <- request_json req ;;
     te <- lift (py_get req_json "text") ;;
     note <- set_text note te ;;
     ti <- lift (py_get req_json "title") ;;
     note <- set_title note ti ;;
     session_add note ;;
     session_commit ;;
     n <- refresh note ;;
     ret (RvPair (jsonify (note_dict n)) 204))
    is_Exception
    (ret (RvPair message_error 404)).

(** The f-string of the confirmation: its non-ASCII part is the source's
    bytes C3 A2 E2 80 9E E2 80 93. *)
Definition deleted_prefix : string :=
  String.append "You have deleted note "
    (String.append
       (string_of_list_ascii
          (map (fun n => ascii_of_nat n) [195; 162; 226; 128; 158; 226; 128; 147]%nat))
       " ").

Definition deleted_message (k : Z) : string :=
  String.append deleted_prefix (str_of_int k).

(** [DELETE /notes/<int:note_id>] *)
Definition delete (k : Z) : M view_rv :=
  try_except
    (note <- query_get k ;;
     session_delete note ;;
     session_commit ;;
     ret (RvPair (VStr (deleted_message k)) 200))
    is_Exception
    (ret (RvPair message_error 404)).

(** ** Notions used by the statements *)

Definition keys (t : table) : list Z := map col_note_id t.

(** The primary key: no two rows share a [note_id]. *)
Definition primary_key (t : table) : Prop := NoDup (keys t).

(** The exception of a get that finds no record: the None dereferenced,
    or the key the driver refused. *)
Definition missing_fault (k : Z) : exn :=
  if fits_int64 k then AttributeError else OverflowError.

(** A request whose body parsed to [v]. *)
Definition json_request (v : value) : request := mkRequest (inr v).

(** What one POST does, by the body's [title] and [text] entries alone. *)
Definition register_effect (now : Z) (db : table) (ti te : option value)
  : outcome * table :=
  match ti, te with
  | Some vti, Some vte =>
      match bind_param vti, bind_param vte with
      | inr cti, inr cte => (Unhandled TypeError, insert_row cti cte now db)
      | inl e, _ => (Unhandled e, db)
      | _, inl e => (Unhandled e, db)
      end
  | _, _ => (Response invalid_request 400, db)
  end.

(** What one PUT does. *)
Definition put_effect (k : Z) (req : request) (db : table) : outcome * table :=
  match select_by_key k db, json req with
  | Some r, inr (VDict d) =>
      match bind_param (dict_get d "title"), bind_param (dict_get d "text") with
      | inr ti, inr te =>
          (Response (note_dict (load (mkRow k ti te (col_data r)))) 204,
           update_row k ti te db)
      | _, _ => (Response message_error 404, db)
      end
  | _, _ => (Response message_error 404, db)
  end.

(** The table after one POST. *)
Definition after_register (req : request) (now : Z) (db : table) : table :=
  snd (serve (register req) now db).

(** A create request that stores a note: a JSON object with string
    [title] and [text]. *)
Definition creates_note (req : request) : Prop :=
  exists d T X,
    req = json_request (VDict d) /\
    dict_lookup "title" d = Some (VStr T) /\
    dict_lookup "text" d = Some (VStr X).

(** A run of POSTs, each with the clock of its own request. *)
Fixpoint register_all (reqs : list (request * Z)) (db : table) : table :=
  match reqs with
  | [] => db
  | (req, now) :: rest => register_all rest (after_register req now db)
  end.

(** The JSON object of one stored note. *)
Definition record_of (r : row) : value :=
  VDict [("note_id"%string, VInt (col_note_id r));
         ("title"%string, value_of_cell (col_title r));
         ("text"%string, value_of_cell (col_text r));
         ("data"%string, VDateTime (col_data r))].

(** A title of 31 characters, one more than the column declares. *)
Definition long_title : string := "0123456789012345678901234567890".

(** ** Routing *)

(** The requests the [@app.route] decorators accept, by method and path;
    [<int:note_id>] is the integer of the path. *)
Inductive call : Type :=
| GET_notes                            (* GET /notes/ *)
| GET_note (k : Z)                     (* GET /notes/<int:note_id> *)
| POST_notes (req : request)           (* POST /notes *)
| PUT_note (k : Z) (req : request)     (* PUT /notes/<int:note_id> *)
| DELETE_note (k : Z).                 (* DELETE /notes/<int:note_id> *)

Definition route (c : call) : M view_rv :=
  match c with
  | GET_notes => index
  | GET_note k => note_by_note_id k
  | POST_notes req => register req
  | PUT_note k req => put k req
  | DELETE_note k => delete k
  end.

(** The table after a run of requests, each served at its own clock. *)
Fixpoint serve_all (cs : list (call * Z)) (db : table) : table :=
  match cs with
  | [] => db
  | (c, now) :: rest => serve_all rest (snd (serve (route c) now db))
  end.

(** The two GET requests. *)
Definition is_read (c : call) : bool :=
  match c with
  | GET_notes | GET_note _ => true
  | POST_notes _ | PUT_note _ _ | DELETE_note _ => false
  end.

(** Rows in strictly ascending order of [note_id], the ids from 1 up. *)
Definition ascending (t : table) : Prop :=
  StronglySorted Z.lt (keys t) /\ Forall (fun k => 1 <= k) (keys t).

(** ** Facts about the table *)

(** Case split on the key of [r] against two ids. *)
Ltac compare_keys r k j :=
  unfold has_key in *;
  destruct (Z.eqb_spec (col_note_id r) k); simpl;
  destruct (Z.eqb_spec (col_note_id r) j).

Lemma max_rowid_bound (t : table) (r : row) :
  In r t -> exists m, max_rowid t = Some m /\ col_note_id r <= m.
Proof.
  induction t as [|r0 t IH]; simpl; [tauto|].
  intros [->|Hin].
  - destruct (max_rowid t); eexists; split; try reflexivity; lia.
  - destruct (IH Hin) as (m & -> & Hle).
    eexists; split; [reflexivity|lia].
Qed.

Lemma next_rowid_above (t : table) (r : row) :
  In r t -> col_note_id r < next_rowid t.
Proof.
  intros Hin. unfold next_rowid.
  destruct (max_rowid_bound t r Hin) as (m & -> & Hle). lia.
Qed.

Lemma select_by_key_some (k : Z) (t : table) (r : row) :
  select_by_key k t = Some r -> In r t /\ col_note_id r = k.
Proof.
  unfold select_by_key. intros H. apply find_some in H.
  unfold has_key in H. destruct H as [Hin Hk]. split; [assumption|lia].
Qed.

Lemma select_by_key_none (k : Z) (t : table) :
  select_by_key k t = None <-> ~ In k (keys t).
Proof.
  unfold select_by_key, keys. split.
  - intros H Hin. apply in_map_iff in Hin. destruct Hin as (r & Hk & Hin).
    pose proof (find_none _ _ H r Hin) as Hn. unfold has_key in Hn. lia.
  - intros Hn. induction t as [|r t IH]; simpl; [reflexivity|].
    unfold has_key at 1. destruct (Z.eqb_spec (col_note_id r) k) as [E|E].
    + exfalso. apply Hn. simpl. auto.
    + apply IH. intros Hin. apply Hn. simpl. auto.
Qed.

Lemma next_rowid_unused (t : table) : select_by_key (next_rowid t) t = None.
Proof.
  apply select_by_key_none. unfold keys. intros Hin.
  apply in_map_iff in Hin. destruct Hin as (r & Hk & Hin).
  apply next_rowid_above in Hin. lia.
Qed.

Lemma select_app (k : Z) (t u : table) :
  select_by_key k (t ++ u) =
  match select_by_key k t with Some r => Some r | None => select_by_key k u end.
Proof.
  unfold select_by_key. induction t as [|r t IH]; simpl; [reflexivity|].
  destruct (has_key k r); [reflexivity|exact IH].
Qed.

Lemma select_insert_new (ti te : cell) (now : Z) (t : table) :
  select_by_key (next_rowid t) (insert_row ti te now t) =
  Some (mkRow (next_rowid t) ti te now).
Proof.
  unfold insert_row. rewrite select_app, next_rowid_unused.
  unfold select_by_key, has_key. simpl. now rewrite Z.eqb_refl.
Qed.

Lemma select_insert_old (k : Z) (ti te : cell) (now : Z) (t : table) :
  k <> next_rowid t ->
  select_by_key k (insert_row ti te now t) = select_by_key k t.
Proof.
  intros Hk. unfold insert_row. rewrite select_app.
  destruct (select_by_key k t); [reflexivity|].
  unfold select_by_key, has_key. simpl.
  destruct (Z.eqb_spec (next_rowid t) k); [congruence|reflexivity].
Qed.

Lemma select_update_same (k : Z) (ti te : cell) (t : table) (r : row) :
  select_by_key k t = Some r ->
  select_by_key k (update_row k ti te t) = Some (mkRow k ti te (col_data r)).
Proof.
  unfold select_by_key, update_row.
  induction t as [|r0 t IH]; simpl; [discriminate|].
  destruct (has_key k r0) eqn:E.
  - intros [= ->]. simpl. unfold has_key in *. simpl. rewrite E.
    f_equal. f_equal. lia.
  - intros H. rewrite E. auto.
Qed.

Lemma select_update_other (j k : Z) (ti te : cell) (t : table) :
  j <> k -> select_by_key j (update_row k ti te t) = select_by_key j t.
Proof.
  intros Hjk. unfold select_by_key, update_row.
  induction t as [|r0 t IH]; simpl; [reflexivity|].
  compare_keys r0 k j; try reflexivity; try exact IH. congruence.
Qed.

Lemma update_row_frame (k : Z) (ti te : cell) (t : table) :
  Forall2 (fun old new =>
             col_note_id new = col_note_id old /\
             col_data new = col_data old /\
             (col_note_id old <> k -> new = old))
          t (update_row k ti te t).
Proof.
  unfold update_row. induction t as [|r t IH]; simpl; constructor; [|exact IH].
  unfold has_key. destruct (Z.eqb_spec (col_note_id r) k); simpl; tauto.
Qed.

Lemma in_delete_row (k : Z) (t : table) (r : row) :
  In r (delete_row k t) <-> In r t /\ col_note_id r <> k.
Proof.
  unfold delete_row. rewrite filter_In. unfold has_key.
  destruct (Z.eqb_spec (col_note_id r) k); simpl; intuition congruence.
Qed.

Lemma select_delete_same (k : Z) (t : table) :
  select_by_key k (delete_row k t) = None.
Proof.
  apply select_by_key_none. unfold keys. intros Hin.
  apply in_map_iff in Hin. destruct Hin as (r & Hk & Hin).
  apply in_delete_row in Hin. tauto.
Qed.

Lemma select_delete_other (j k : Z) (t : table) :
  j <> k -> select_by_key j (delete_row k t) = select_by_key j t.
Proof.
  intros Hjk. unfold select_by_key, delete_row.
  induction t as [|r t IH]; simpl; [reflexivity|].
  compare_keys r k j; try reflexivity; try exact IH. congruence.
Qed.

Lemma delete_row_absent (k : Z) (t : table) :
  ~ In k (keys t) -> delete_row k t = t.
Proof.
  unfold delete_row, keys. induction t as [|r t IH]; simpl; [reflexivity|].
  intros Hn. unfold has_key at 1.
  destruct (Z.eqb_spec (col_note_id r) k) as [E|E]; simpl.
  - exfalso. auto.
  - f_equal. apply IH. auto.
Qed.

Lemma primary_key_insert (ti te : cell) (now : Z) (t : table) :
  primary_key t -> primary_key (insert_row ti te now t).
Proof.
  unfold primary_key, keys, insert_row. intros Hnd.
  rewrite map_app. simpl.
  apply NoDup_rev in Hnd. rewrite <- (rev_involutive (_ ++ _)).
  apply NoDup_rev. rewrite rev_app_distr. simpl. constructor; [|exact Hnd].
  rewrite <- in_rev. intros Hin.
  apply in_map_iff in Hin. destruct Hin as (r & Hk & Hin).
  apply next_rowid_above in Hin. lia.
Qed.

Lemma length_delete_row (k : Z) (t : table) :
  primary_key t -> In k (keys t) ->
  S (List.length (delete_row k t)) = List.length t.
Proof.
  unfold primary_key. induction t as [|r t IH]; simpl; [tauto|].
  intros Hnd Hin. inversion_clear Hnd as [|? ? Hnotin Hnd'].
  unfold has_key at 1. destruct (Z.eqb_spec (col_note_id r) k) as [E|E]; simpl.
  - subst k. now rewrite delete_row_absent.
  - f_equal. apply IH; [assumption|]. destruct Hin; [congruence|assumption].
Qed.

(** ** The views, one request at a time *)

Lemma serve_index (now : Z) (db : table) :
  serve index now db = (Response (VList (map note_dict (map load db))) 200, db).
Proof. reflexivity. Qed.

Lemma serve_get (k now : Z) (db : table) :
  serve (note_by_note_id k) now db =
  match select_by_key k db with
  | Some r => (Response (note_dict (load r)) 200, db)
  | None => (Unhandled (missing_fault k), db)
  end.
Proof.
  unfold serve, note_by_note_id, bind, query_get, missing_fault. simpl.
  destruct (select_by_key k db); [reflexivity|].
  destruct (fits_int64 k); reflexivity.
Qed.

Lemma invalid_body_dict (d : list (string * value)) :
  invalid_body (VDict d) =
  inr (match dict_lookup "text" d, dict_lookup "title" d with
       | Some _, Some _ => false
       | _, _ => true
       end).
Proof.
  unfold invalid_body. destruct d as [|e d]; [reflexivity|].
  cbn [truthy negb py_in].
  destruct (dict_lookup "text" (e :: d)); [|reflexivity].
  destruct (dict_lookup "title" (e :: d)); reflexivity.
Qed.

Lemma bind_param_not_integrity (v : value) :
  bind_param v <> inl IntegrityError.
Proof.
  destruct v; unfold bind_param; try discriminate.
  destruct ((- 2 ^ 63 <=? n) && (n <? 2 ^ 63)); discriminate.
Qed.

Lemma serve_register_dict (now : Z) (db : table) (d : list (string * value)) :
  serve (register (json_request (VDict d))) now db =
  register_effect now db (dict_lookup "title" d) (dict_lookup "text" d).
Proof.
  unfold serve, register, bind, request_json, lift, json_request. simpl json.
  cbv beta iota. rewrite invalid_body_dict. unfold register_effect.
  destruct (dict_lookup "text" d) as [vte|] eqn:Hte;
    destruct (dict_lookup "title" d) as [vti|] eqn:Hti; try reflexivity.
  unfold try_except, bind, lift, py_getitem. rewrite Hti, Hte.
  unfold session_add, Note_new, stage, session_commit, ret. simpl.
  pose proof (bind_param_not_integrity vti) as Nti.
  pose proof (bind_param_not_integrity vte) as Nte.
  destruct (bind_param vti) as [e|cti], (bind_param vte) as [e'|cte];
    try reflexivity.
  - destruct e; try reflexivity; congruence.
  - destruct e; try reflexivity; congruence.
  - destruct e'; try reflexivity; congruence.
Qed.

Lemma serve_put (k now : Z) (req : request) (db : table) :
  serve (put k req) now db = put_effect k req db.
Proof.
  unfold put_effect, serve, put, try_except, bind, query_get, request_json, lift.
  simpl. destruct req as [[e|v]]; simpl.
  - destruct (select_by_key k db); [|destruct (fits_int64 k)]; reflexivity.
  - destruct (select_by_key k db) as [r|] eqn:Hsel.
    + destruct (select_by_key_some _ _ _ Hsel) as [_ Hk].
      destruct v; simpl; try reflexivity.
      unfold session_commit. simpl. rewrite Hk.
      destruct (bind_param (dict_get entries "title")) as [e|ti];
        destruct (bind_param (dict_get entries "text")) as [e'|te];
        simpl; try reflexivity.
      unfold refresh, bind, deref, ret. simpl.
      rewrite (select_update_same k ti te db r Hsel). reflexivity.
    + destruct (fits_int64 k); destruct v; reflexivity.
Qed.

Lemma serve_delete (k now : Z) (db : table) :
  serve (delete k) now db =
  match select_by_key k db with
  | Some _ => (Response (VStr (deleted_message k)) 200, delete_row k db)
  | None => (Response message_error 404, db)
  end.
Proof.
  unfold serve, delete, try_except, bind, query_get. simpl.
  destruct (select_by_key k db) as [r|] eqn:Hsel;
    [|destruct (fits_int64 k); reflexivity].
  destruct (select_by_key_some _ _ _ Hsel) as [_ Hk].
  simpl. now rewrite Hk.
Qed.

(** ** Create *)

Lemma register_inserts (now : Z) (db : table) (d : list (string * value))
      (T X : string) :
  dict_lookup "title" d = Some (VStr T) ->
  dict_lookup "text" d = Some (VStr X) ->
  serve (register (json_request (VDict d))) now db =
  (Unhandled TypeError, insert_row (Some T) (Some X) now db).
Proof.
  intros Hti Hte. rewrite serve_register_dict, Hti, Hte. reflexivity.
Qed.

(** C1. Create-then-get round trip: for every request body whose [title]
    and [text] are strings, the create operation appends one record whose
    [note_id] the table chose, and get-by-id with that id answers 200 with
    a record holding the submitted title and text, that [note_id], and the
    time of creation as [data]. *)
Theorem create_then_get (now later : Z) (db : table)
        (d : list (string * value)) (T X : string) :
  dict_lookup "title" d = Some (VStr T) ->
  dict_lookup "text" d = Some (VStr X) ->
  let db' := after_register (json_request (VDict d)) now db in
  let id := next_rowid db in
  db' = db ++ [mkRow id (Some T) (Some X) now] /\
  serve (note_by_note_id id) later db' =
  (Response (VDict [("note_id"%string, VInt id);
                    ("title"%string, VStr T);
                    ("text"%string, VStr X);
                    ("data"%string, VDateTime now)]) 200,
   db').
Proof.
  intros Hti Hte db' id. subst db' id. unfold after_register.
  rewrite (register_inserts now db d T X Hti Hte). simpl snd.
  split; [reflexivity|].
  rewrite serve_get, select_insert_new. reflexivity.
Qed.

Lemma create_then_get_witness :
  serve (note_by_note_id 1) 200
        (after_register
           (json_request (VDict [("title"%string, VStr "T");
                                 ("text"%string, VStr "X")])) 100 []) =
  (Response (VDict [("note_id"%string, VInt 1);
                    ("title"%string, VStr "T");
                    ("text"%string, VStr "X");
                    ("data"%string, VDateTime 100)]) 200,
   [mkRow 1 (Some "T"%string) (Some "X"%string) 100]).
Proof.
  exact (proj2 (create_then_get 100 200 []
                  [("title"%string, VStr "T"); ("text"%string, VStr "X")]
                  "T" "X" eq_refl eq_refl)).
Defined.

(** C8. Create stores verbatim: for every create request whose body holds
    string [title] and [text], of any length, the table gains exactly one
    record, with those two strings unmodified, the next rowid as its id and
    the time of the insertion as its timestamp. *)
Theorem create_stores_verbatim (now : Z) (db : table)
        (d : list (string * value)) (T X : string) :
  dict_lookup "title" d = Some (VStr T) ->
  dict_lookup "text" d = Some (VStr X) ->
  exists r,
    after_register (json_request (VDict d)) now db = db ++ [r] /\
    col_title r = Some T /\ col_text r = Some X /\
    col_note_id r = next_rowid db /\ col_data r = now /\
    ~ In (col_note_id r) (keys db).
Proof.
  intros Hti Hte. exists (mkRow (next_rowid db) (Some T) (Some X) now).
  unfold after_register. rewrite (register_inserts now db d T X Hti Hte).
  simpl. repeat split.
  apply select_by_key_none, next_rowid_unused.
Qed.

Lemma create_stores_verbatim_witness :
  (30 < String.length long_title)%nat /\
  exists r,
    after_register
      (json_request (VDict [("title"%string, VStr long_title);
                            ("text"%string, VStr "X")])) 100 [] = [] ++ [r] /\
    col_title r = Some long_title /\ col_text r = Some "X"%string /\
    col_note_id r = next_rowid [] /\ col_data r = 100 /\
    ~ In (col_note_id r) (keys []).
Proof.
  split.
  - simpl. lia.
  - apply (create_stores_verbatim 100 []
             [("title"%string, VStr long_title); ("text"%string, VStr "X")]
             long_title "X"); reflexivity.
Defined.

(** C9. Create ignores unknown body fields: two bodies that agree on their
    [title] and [text] entries get the same answer and leave the same
    table, whatever else they hold; with string title and text the new
    record's id is the table's next rowid, also when the body carries a
    [note_id] of its own. *)
Theorem create_ignores_other_fields (now : Z) (db : table)
        (d1 d2 : list (string * value)) :
  dict_lookup "title" d1 = dict_lookup "title" d2 ->
  dict_lookup "text" d1 = dict_lookup "text" d2 ->
  serve (register (json_request (VDict d1))) now db =
  serve (register (json_request (VDict d2))) now db /\
  forall T X,
    dict_lookup "title" d1 = Some (VStr T) ->
    dict_lookup "text" d1 = Some (VStr X) ->
    after_register (json_request (VDict d2)) now db =
    db ++ [mkRow (next_rowid db) (Some T) (Some X) now].
Proof.
  intros Hti Hte. rewrite !serve_register_dict, Hti, Hte.
  split; [reflexivity|].
  intros T X HT HX. unfold after_register.
  rewrite (register_inserts now db d2 T X); [reflexivity| |]; congruence.
Qed.

Lemma create_ignores_other_fields_witness :
  after_register
    (json_request (VDict [("note_id"%string, VInt 77);
                          ("title"%string, VStr "T");
                          ("text"%string, VStr "X")])) 100
    [mkRow 1 None None 5] =
  [mkRow 1 None None 5; mkRow 2 (Some "T"%string) (Some "X"%string) 100].
Proof.
  exact (proj2 (create_ignores_other_fields 100 [mkRow 1 None None 5]
                  [("title"%string, VStr "T"); ("text"%string, VStr "X")]
                  [("note_id"%string, VInt 77);
                   ("title"%string, VStr "T"); ("text"%string, VStr "X")]
                  eq_refl eq_refl) "T"%string "X"%string eq_refl eq_refl).
Defined.

(** Create validation on the body [null] and on a JSON object: without
    [title] or without [text] the answer is the 400 error and the table is
    as before. *)
Lemma register_rejects_incomplete (now : Z) (db : table) (v : value) :
  v = VNone \/
  (exists d, v = VDict d /\
             (dict_lookup "title" d = None \/ dict_lookup "text" d = None)) ->
  serve (register (json_request v)) now db =
  (Response invalid_request 400, db).
Proof.
  intros [->|(d & -> & Hmiss)]; [reflexivity|].
  rewrite serve_register_dict. unfold register_effect.
  destruct Hmiss as [-> | ->]; [reflexivity|].
  destruct (dict_lookup "title" d); reflexivity.
Qed.

(** C2. Create validation, where it fails: a body that is a JSON number
    has neither field, and the membership test of the validation raises
    TypeError on it; the request ends as an unhandled fault (status 500),
    not as the 400 error.  The table is unchanged. *)
Theorem register_number_body_faults (now : Z) (db : table) :
  serve (register (json_request (VInt 5))) now db = (Unhandled TypeError, db) /\
  status_of (fst (serve (register (json_request (VInt 5))) now db)) = 500.
Proof. split; reflexivity. Qed.

(** ** Get *)

(** C4, amended. Get on a missing id: when no stored record has the id,
    the request ends as a fault nobody handles, with status 500, and no
    404 response is produced.  For an id within SQLite's 64-bit integers
    the fault is the AttributeError of dereferencing the None that the
    lookup returned; for a larger id the lookup itself raises
    OverflowError and nothing is dereferenced. *)
Theorem get_missing_faults (k now : Z) (db : table) :
  select_by_key k db = None ->
  serve (note_by_note_id k) now db =
    (Unhandled (if fits_int64 k then AttributeError else OverflowError), db) /\
  status_of (fst (serve (note_by_note_id k) now db)) = 500 /\
  forall body, fst (serve (note_by_note_id k) now db) <> Response body 404.
Proof.
  intros Hsel. rewrite serve_get, Hsel. unfold missing_fault.
  destruct (fits_int64 k); simpl; repeat split; intros body; discriminate.
Qed.

Lemma get_missing_faults_witness :
  serve (note_by_note_id 99999) 7 [mkRow 1 (Some "a"%string) None 3] =
  (Unhandled AttributeError, [mkRow 1 (Some "a"%string) None 3]).
Proof.
  exact (proj1 (get_missing_faults 99999 7 [mkRow 1 (Some "a"%string) None 3]
                  eq_refl)).
Defined.

(** C4 as first stated, that every missing id ends in the dereference of
    None, fails at the id 2^63: GET /notes/9223372036854775808 ends in
    the OverflowError of the lookup. *)
Lemma get_missing_counterexample :
  ~ (forall k now db,
        select_by_key k db = None ->
        serve (note_by_note_id k) now db = (Unhandled AttributeError, db)).
Proof.
  intros H.
  specialize (H (2 ^ 63) 7 [mkRow 1 (Some "a"%string) None 3] eq_refl).
  vm_compute in H. discriminate H.
Qed.

(** ** Replace *)

(** C3, amended. Replace is a full overwrite: for every existing note and
    every body that is a JSON object whose [title] and [text], read with
    [dict.get], the String columns accept, the replace answers 204 with
    the updated record's four fields, and the stored title and text are
    the values of the body: a string is stored as it is, and a field the
    body omits becomes NULL whatever the note held before. *)
Theorem put_full_overwrite (k now : Z) (db : table) (r : row)
        (d : list (string * value)) (ti te : cell) :
  select_by_key k db = Some r ->
  bind_param (dict_get d "title") = inr ti ->
  bind_param (dict_get d "text") = inr te ->
  let res := serve (put k (json_request (VDict d))) now db in
  fst res = Response (VDict [("note_id"%string, VInt k);
                             ("title"%string, value_of_cell ti);
                             ("text"%string, value_of_cell te);
                             ("data"%string, VDateTime (col_data r))]) 204 /\
  select_by_key k (snd res) = Some (mkRow k ti te (col_data r)) /\
  (forall s, dict_lookup "title" d = Some (VStr s) -> ti = Some s) /\
  (forall s, dict_lookup "text" d = Some (VStr s) -> te = Some s) /\
  (dict_lookup "title" d = None -> ti = None) /\
  (dict_lookup "text" d = None -> te = None).
Proof.
  intros Hsel Hti Hte res. subst res.
  rewrite serve_put. unfold put_effect, json_request. simpl json.
  rewrite Hsel, Hti, Hte. simpl fst. simpl snd.
  split; [reflexivity|].
  split; [apply select_update_same with (1 := Hsel)|].
  unfold dict_get in Hti, Hte.
  repeat split.
  - intros s Hs. rewrite Hs in Hti. simpl in Hti. congruence.
  - intros s Hs. rewrite Hs in Hte. simpl in Hte. congruence.
  - intros Hs. rewrite Hs in Hti. simpl in Hti. congruence.
  - intros Hs. rewrite Hs in Hte. simpl in Hte. congruence.
Qed.

Lemma put_full_overwrite_witness :
  let db := [mkRow 1 (Some "old title"%string) (Some "old"%string) 3] in
  let res := serve (put 1 (json_request (VDict [("text"%string, VStr "new")])))
                   9 db in
  fst res = Response (VDict [("note_id"%string, VInt 1);
                             ("title"%string, VNone);
                             ("text"%string, VStr "new");
                             ("data"%string, VDateTime 3)]) 204 /\
  select_by_key 1 (snd res) = Some (mkRow 1 None (Some "new"%string) 3).
Proof.
  pose proof (put_full_overwrite 1 9
                [mkRow 1 (Some "old title"%string) (Some "old"%string) 3]
                (mkRow 1 (Some "old title"%string) (Some "old"%string) 3)
                [("text"%string, VStr "new")] None (Some "new"%string)
                eq_refl eq_refl eq_refl) as H.
  exact (conj (proj1 H) (proj1 (proj2 H))).
Defined.

(** C3 as first stated, for every request body, fails: with a list as
    [title] the flush raises, the view answers 404, and the [text] of the
    body is not stored although the note exists. *)
Lemma put_full_overwrite_counterexample :
  ~ (forall k now db r d s,
        select_by_key k db = Some r ->
        dict_lookup "text" d = Some (VStr s) ->
        exists r',
          select_by_key k (snd (serve (put k (json_request (VDict d))) now db)) =
            Some r' /\
          col_text r' = Some s).
Proof.
  intros H.
  destruct (H 1 9 [mkRow 1 (Some "old title"%string) (Some "old"%string) 3]
              (mkRow 1 (Some "old title"%string) (Some "old"%string) 3)
              [("title"%string, VList [VStr "x"]); ("text"%string, VStr "new")]
              "new"%string eq_refl eq_refl) as (r' & Hsel & Htext).
  vm_compute in Hsel. injection Hsel as <-. discriminate Htext.
Qed.

(** Every PUT either answers 204 after the update of the one record, or
    answers the 404 error and leaves the table alone. *)
Lemma put_cases (k now : Z) (req : request) (db : table) :
  (exists r d ti te,
      select_by_key k db = Some r /\
      json req = inr (VDict d) /\
      bind_param (dict_get d "title") = inr ti /\
      bind_param (dict_get d "text") = inr te /\
      serve (put k req) now db =
      (Response (note_dict (load (mkRow k ti te (col_data r)))) 204,
       update_row k ti te db)) \/
  serve (put k req) now db = (Response message_error 404, db).
Proof.
  rewrite serve_put. unfold put_effect.
  destruct (select_by_key k db) as [r|] eqn:Hsel; [|now right].
  destruct (json req) as [e|v] eqn:Hreq; [now right|].
  destruct v; try now right.
  destruct (bind_param (dict_get entries "title")) as [e|ti] eqn:Hti;
    [now right|].
  destruct (bind_param (dict_get entries "text")) as [e|te] eqn:Hte;
    [now right|].
  left. exists r, entries, ti, te. repeat split; reflexivity || assumption.
Qed.

(** C7. Replace frame condition: after a replace that answered 204, the
    table has the same records in the same places, each with the
    [note_id] and the [data] it had, and every record with another id is
    identical to what it was; the replaced note itself keeps its id and
    its creation timestamp. *)
Theorem put_frame (k now : Z) (req : request) (db : table) (r : row) :
  select_by_key k db = Some r ->
  status_of (fst (serve (put k req) now db)) = 204 ->
  let db' := snd (serve (put k req) now db) in
  Forall2 (fun old new =>
             col_note_id new = col_note_id old /\
             col_data new = col_data old /\
             (col_note_id old <> k -> new = old))
          db db' /\
  (exists ti te, select_by_key k db' = Some (mkRow k ti te (col_data r))) /\
  (forall j, j <> k -> select_by_key j db' = select_by_key j db).
Proof.
  intros Hsel Hst db'. subst db'.
  destruct (put_cases k now req db)
    as [(r0 & d & ti & te & Hsel0 & _ & _ & _ & Heq)|Heq];
    rewrite Heq in *; simpl in Hst; [|discriminate].
  simpl snd. rewrite Hsel in Hsel0. injection Hsel0 as <-.
  split; [apply update_row_frame|].
  split.
  - exists ti, te. now apply select_update_same.
  - intros j Hj. now apply select_update_other.
Qed.

Lemma put_frame_witness :
  let db := [mkRow 1 (Some "a"%string) (Some "b"%string) 3;
             mkRow 2 (Some "c"%string) None 4] in
  let db' := snd (serve (put 1 (json_request
                                  (VDict [("title"%string, VStr "z")]))) 9 db) in
  select_by_key 2 db' = select_by_key 2 db /\
  exists ti te, select_by_key 1 db' = Some (mkRow 1 ti te 3).
Proof.
  pose proof (put_frame 1 9
                (json_request (VDict [("title"%string, VStr "z")]))
                [mkRow 1 (Some "a"%string) (Some "b"%string) 3;
                 mkRow 2 (Some "c"%string) None 4]
                (mkRow 1 (Some "a"%string) (Some "b"%string) 3)
                eq_refl eq_refl) as H.
  split.
  - apply (proj2 (proj2 H)). lia.
  - exact (proj1 (proj2 H)).
Defined.

(** ** Delete *)

(** The digits of [str(k)], read back as a decimal numeral, are the
    numeral of [k]. *)
Lemma str_of_int_reads_back (k : Z) :
  NilZero.int_of_string (str_of_int k) = Some (Z.to_int k).
Proof.
  unfold str_of_int. apply NilZero.isi; destruct k; simpl;
    try discriminate; intros [= H]; now apply Unsigned.to_uint_nonnil in H.
Qed.

(** C5. Delete semantics: deleting an id that has a record answers 200
    with a confirmation text that starts with "You have deleted note " and
    ends with the id written in decimal (digits that read back as the
    numeral of the id), and leaves the table without any record of that id
    and with every other record; deleting the same id again answers 404
    with the error message, and so does deleting any id that has no
    record, with the table unchanged. *)
Theorem delete_semantics (k now later : Z) (db : table) (r : row) :
  select_by_key k db = Some r ->
  let db' := snd (serve (delete k) now db) in
  (exists digits message,
      fst (serve (delete k) now db) = Response (VStr message) 200 /\
      message = String.append deleted_prefix digits /\
      String.prefix "You have deleted note " message = true /\
      NilZero.int_of_string digits = Some (Z.to_int k)) /\
  select_by_key k db' = None /\
  (forall r', In r' db' <-> In r' db /\ col_note_id r' <> k) /\
  serve (delete k) later db' =
    (Response (VDict [("message"%string, VStr "error")]) 404, db') /\
  (forall j t, select_by_key j t = None ->
               serve (delete j) later t =
               (Response (VDict [("message"%string, VStr "error")]) 404, t)).
Proof.
  intros Hsel db'. subst db'. rewrite serve_delete, Hsel. simpl fst. simpl snd.
  split.
  { exists (str_of_int k), (deleted_message k).
    split; [reflexivity|]. split; [reflexivity|].
    split; [reflexivity|apply str_of_int_reads_back]. }
  split; [apply select_delete_same|].
  split; [intros r'; apply in_delete_row|].
  split.
  - rewrite serve_delete, select_delete_same. reflexivity.
  - intros j t Hj. rewrite serve_delete, Hj. reflexivity.
Qed.

Lemma delete_semantics_witness :
  let db := [mkRow 1 (Some "a"%string) (Some "b"%string) 3;
             mkRow 12 (Some "c"%string) None 4] in
  (exists digits message,
      fst (serve (delete 12) 9 db) = Response (VStr message) 200 /\
      message = String.append deleted_prefix digits /\
      String.prefix "You have deleted note " message = true /\
      NilZero.int_of_string digits = Some (Z.to_int 12)) /\
  serve (delete 12) 10 (snd (serve (delete 12) 9 db)) =
    (Response (VDict [("message"%string, VStr "error")]) 404,
     [mkRow 1 (Some "a"%string) (Some "b"%string) 3]).
Proof.
  pose proof (delete_semantics 12 9 10
                [mkRow 1 (Some "a"%string) (Some "b"%string) 3;
                 mkRow 12 (Some "c"%string) None 4]
                (mkRow 12 (Some "c"%string) None 4) eq_refl) as H.
  exact (conj (proj1 H) (proj1 (proj2 (proj2 (proj2 H))))).
Defined.

(** C10. Error atomicity of replace and delete: whenever a replace or a
    delete answers the 404 error, for whatever cause (no record of the id,
    a body that does not parse or has no [get], a parameter the storage
    refuses at the flush), the table after the request is the table before
    it, record for record. *)
Theorem error_atomicity (view : M view_rv) (k now : Z) (req : request)
        (db : table) :
  view = put k req \/ view = delete k ->
  fst (serve view now db) = Response message_error 404 ->
  snd (serve view now db) = db.
Proof.
  intros [-> | ->].
  - destruct (put_cases k now req db)
      as [(r & d & ti & te & _ & _ & _ & _ & Heq)|Heq]; rewrite Heq; simpl.
    + discriminate.
    + reflexivity.
  - rewrite serve_delete. destruct (select_by_key k db); simpl.
    + discriminate.
    + reflexivity.
Qed.

Lemma error_atomicity_witness :
  let db := [mkRow 1 (Some "a"%string) (Some "b"%string) 3] in
  snd (serve (put 2 (json_request (VDict [("title"%string, VStr "z")]))) 9 db)
    = db /\
  snd (serve (put 1 (mkRequest (inl BadRequest))) 9 db) = db /\
  snd (serve (put 1 (json_request (VDict [("title"%string, VList [])]))) 9 db)
    = db /\
  snd (serve (delete 2) 9 db) = db.
Proof.
  intros db. split; [|split; [|split]].
  - apply (error_atomicity _ 2 9
             (json_request (VDict [("title"%string, VStr "z")])));
      [left|]; reflexivity.
  - apply (error_atomicity _ 1 9 (mkRequest (inl BadRequest)));
      [left|]; reflexivity.
  - apply (error_atomicity _ 1 9
             (json_request (VDict [("title"%string, VList [])])));
      [left|]; reflexivity.
  - apply (error_atomicity _ 2 9 (mkRequest (inl BadRequest)));
      [right|]; reflexivity.
Defined.

(** ** List *)

Lemma register_all_grows (reqs : list (request * Z)) (db : table) :
  Forall (fun p => creates_note (fst p)) reqs ->
  primary_key db ->
  primary_key (register_all reqs db) /\
  List.length (register_all reqs db) = (List.length db + List.length reqs)%nat.
Proof.
  revert db. induction reqs as [|[req now] rest IH]; intros db Hall Hpk; simpl.
  - split; [assumption|lia].
  - inversion_clear Hall as [|? ? Hreq Hrest].
    destruct Hreq as (d & T & X & Hd & HT & HX). simpl in Hd. subst req.
    unfold after_register. rewrite (register_inserts now db d T X HT HX).
    simpl snd.
    destruct (IH (insert_row (Some T) (Some X) now db) Hrest
                 (primary_key_insert _ _ _ _ Hpk)) as [Hpk' Hlen].
    split; [assumption|].
    rewrite Hlen. unfold insert_row. rewrite length_app. simpl. lia.
Qed.

Lemma primary_key_delete (k : Z) (t : table) :
  primary_key t -> primary_key (delete_row k t).
Proof.
  unfold primary_key, keys, delete_row.
  induction t as [|r t IH]; simpl; [trivial|].
  intros Hnd. inversion_clear Hnd as [|? ? Hnotin Hnd'].
  destruct (has_key k r); simpl; [auto|].
  constructor; [|auto].
  intros Hin. apply Hnotin.
  apply in_map_iff in Hin. destruct Hin as (r' & Hk & Hin).
  apply filter_In in Hin. apply in_map_iff. exists r'. tauto.
Qed.

(** C6. List totality and completeness: on every table the list operation
    answers 200 with the array holding, in table order, the object
    {note_id, title, text, data} of each stored note and nothing else, the
    empty array on the empty table.  So after N creates on a table with a
    primary key (the empty one, say) and the deletion of one id that is
    then stored, the listing has one record less than the table had notes
    plus N (N - 1 from the empty table), and its records are those of the
    ids still stored, each once. *)
Theorem index_complete (reqs : list (request * Z)) (k now later : Z)
        (db0 : table) :
  primary_key db0 ->
  Forall (fun p => creates_note (fst p)) reqs ->
  In k (keys (register_all reqs db0)) ->
  let db1 := register_all reqs db0 in
  let db2 := snd (serve (delete k) now db1) in
  (forall t, serve index later t = (Response (VList (map record_of t)) 200, t)) /\
  serve index later [] = (Response (VList []) 200, []) /\
  (exists l, fst (serve index later db2) = Response (VList l) 200 /\
             l = map record_of db2 /\
             S (List.length l) = (List.length db0 + List.length reqs)%nat) /\
  (forall r, In r db2 <-> In r db1 /\ col_note_id r <> k) /\
  NoDup (keys db2).
Proof.
  intros Hpk Hall Hin db1 db2.
  assert (Hindex : forall t, serve index later t =
                             (Response (VList (map record_of t)) 200, t)).
  { intros t. rewrite serve_index, map_map. reflexivity. }
  destruct (register_all_grows reqs db0 Hall Hpk) as [Hpk1 Hlen1].
  fold db1 in Hpk1, Hlen1, Hin.
  assert (Hdb2 : db2 = delete_row k db1).
  { subst db2. rewrite serve_delete.
    destruct (select_by_key k db1) eqn:Hsel; [reflexivity|].
    apply select_by_key_none in Hsel. contradiction. }
  split; [exact Hindex|].
  split; [apply Hindex|].
  split.
  - exists (map record_of db2). rewrite Hindex. simpl fst.
    repeat split. rewrite length_map, Hdb2, <- Hlen1.
    now apply length_delete_row.
  - rewrite Hdb2. split.
    + intros r. apply in_delete_row.
    + now apply primary_key_delete.
Qed.

Lemma index_complete_witness :
  let post T X := json_request (VDict [("title"%string, VStr T);
                                       ("text"%string, VStr X)]) in
  let reqs := [(post "a" "1", 10); (post "b" "2", 20); (post "c" "3", 30)]
                %string in
  fst (serve index 50 (snd (serve (delete 2) 40 (register_all reqs [])))) =
  Response (VList [record_of (mkRow 1 (Some "a") (Some "1") 10);
                   record_of (mkRow 3 (Some "c") (Some "3") 30)]%string) 200.
Proof.
  intros post reqs.
  assert (Hall : Forall (fun p => creates_note (fst p)) reqs).
  { repeat constructor; simpl; do 3 eexists; repeat split; reflexivity. }
  assert (Hin : In 2 (keys (register_all reqs []))).
  { simpl. auto. }
  destruct (index_complete reqs 2 40 50 [] (NoDup_nil Z) Hall Hin)
    as (_ & _ & (l & Hl & Hmap & _) & _).
  rewrite Hl, Hmap. reflexivity.
Defined.

(** ** Beyond the single views: every request, and runs of requests *)

Lemma invalid_body_raises (v : value) (e : exn) :
  invalid_body v = inl e -> e = TypeError.
Proof.
  unfold invalid_body. destruct (negb (truthy v)); [discriminate|].
  destruct v; simpl;
    repeat match goal with
           | |- context [match ?c with _ => _ end] => destruct c
           end; congruence.
Qed.

(** The create view on a body that is not an object: the 400 error when
    the check says so, the TypeError of [in] or of the subscription
    otherwise; nothing is stored. *)
Lemma serve_register_nondict (now : Z) (db : table) (v : value) :
  (forall d, v <> VDict d) ->
  serve (register (json_request v)) now db =
  match invalid_body v with
  | inr true => (Response invalid_request 400, db)
  | _ => (Unhandled TypeError, db)
  end.
Proof.
  intros Hnd.
  unfold serve, register, bind, request_json, lift, json_request. simpl json.
  cbv beta iota.
  destruct (invalid_body v) as [e|[|]] eqn:Hinv; try reflexivity.
  - now rewrite (invalid_body_raises v e Hinv).
  - destruct v; try reflexivity. now destruct (Hnd entries).
Qed.

Lemma existsb_is_str (k : string) (items : list value) :
  existsb (is_str k) items = true <-> In (VStr k) items.
Proof.
  rewrite existsb_exists. split.
  - intros (x & Hin & Hx). destruct x; simpl in Hx; try discriminate.
    apply String.eqb_eq in Hx. now subst.
  - intros Hin. exists (VStr k). split; [assumption|]. simpl.
    apply String.eqb_refl.
Qed.

(** X1. Every create request ends in one of two ways.  Either nothing is
    stored and the answer is the 400 error or an exception nobody handles;
    or the body is an object whose title and text the columns accept, one
    row with the next rowid is appended, and the view, having no return
    statement on this path, ends as the TypeError of a view that returned
    None.  So the create never answers with a success status, and never
    with the "already exists" body. *)
Theorem register_outcomes (now : Z) (req : request) (db : table) :
  ((snd (serve (register req) now db) = db /\
    (fst (serve (register req) now db) = Response invalid_request 400 \/
     exists e, fst (serve (register req) now db) = Unhandled e)) \/
   (exists d vti vte cti cte,
       json req = inr (VDict d) /\
       dict_lookup "title" d = Some vti /\
       dict_lookup "text" d = Some vte /\
       bind_param vti = inr cti /\
       bind_param vte = inr cte /\
       serve (register req) now db =
       (Unhandled TypeError, db ++ [mkRow (next_rowid db) cti cte now]))) /\
  (forall body status,
      fst (serve (register req) now db) = Response body status ->
      body = invalid_request /\ status = 400).
Proof.
  destruct req as [[e|v]].
  - split; [left; split; [reflexivity|right; now exists e]|].
    intros body status H. discriminate.
  - change (mkRequest (inr v)) with (json_request v).
    assert (Hnd : (exists d, v = VDict d) \/ (forall d, v <> VDict d)).
    { destruct v; try (right; intros d; discriminate). left. now eexists. }
    destruct Hnd as [(d & ->)|Hnd].
    + rewrite serve_register_dict. unfold register_effect.
      destruct (dict_lookup "title" d) as [vti|] eqn:Hti;
        [|split; [left; split; [reflexivity|now left]
                 |intros ? ? [= <- <-]; now split]].
      destruct (dict_lookup "text" d) as [vte|] eqn:Hte;
        [|split; [left; split; [reflexivity|now left]
                 |intros ? ? [= <- <-]; now split]].
      destruct (bind_param vti) as [e1|cti] eqn:Bti;
        [split; [left; split; [reflexivity|right; now exists e1]
                |intros ? ? H; discriminate]|].
      destruct (bind_param vte) as [e2|cte] eqn:Bte;
        [split; [left; split; [reflexivity|right; now exists e2]
                |intros ? ? H; discriminate]|].
      split; [|intros ? ? H; discriminate].
      right. exists d, vti, vte, cti, cte. repeat split; assumption.
    + rewrite (serve_register_nondict now db v Hnd).
      destruct (invalid_body v) as [e|[|]].
      * split; [left; split; [reflexivity|right; now eexists]
               |intros ? ? H; discriminate].
      * split; [left; split; [reflexivity|now left]
               |intros ? ? [= <- <-]; now split].
      * split; [left; split; [reflexivity|right; now eexists]
               |intros ? ? H; discriminate].
Qed.

Lemma register_outcomes_witness :
  fst (serve (register (json_request
                          (VDict [("title"%string, VList [VInt 1]);
                                  ("text"%string, VStr "X")]))) 7 []) =
    Unhandled InterfaceError /\
  (forall body status,
      fst (serve (register (json_request
                              (VDict [("title"%string, VStr "T")]))) 7 []) =
      Response body status ->
      body = invalid_request /\ status = 400).
Proof.
  split; [reflexivity|].
  exact (proj2 (register_outcomes 7
                  (json_request (VDict [("title"%string, VStr "T")])) [])).
Defined.

Lemma invalid_body_true_iff (v : value) :
  invalid_body v = inr true <->
  truthy v = false \/
  (exists d, v = VDict d /\
             (dict_lookup "title" d = None \/ dict_lookup "text" d = None)) \/
  (exists items, v = VList items /\
                 ~ (In (VStr "text") items /\ In (VStr "title") items)) \/
  (exists s, v = VStr s /\
             (substring_of "text" s = false \/ substring_of "title" s = false)).
Proof.
  destruct v as [|b|n|s|items|d|t].
  - split; [now left|reflexivity].
  - destruct b; simpl; split; try (now left); try reflexivity; try discriminate.
    intros [H|[(d & H & _)|[(l & H & _)|(s & H & _)]]]; discriminate.
  - unfold invalid_body. simpl. destruct (n =? 0); simpl.
    + split; [now left|reflexivity].
    + split; [discriminate|].
      intros [H|[(d & H & _)|[(l & H & _)|(s & H & _)]]]; discriminate.
  - unfold invalid_body. simpl truthy. simpl py_in.
    destruct (String.eqb s EmptyString); simpl negb; cbv iota.
    + split; [now left|reflexivity].
    + destruct (substring_of "text" s) eqn:E1;
        [destruct (substring_of "title" s) eqn:E2|]; simpl; split;
        try discriminate; try reflexivity.
      * intros [H|[(d & H & _)|[(l & H & _)|(s' & [= <-] & [H|H])]]];
          congruence.
      * intros _. right. right. right. exists s. auto.
      * intros _. right. right. right. exists s. auto.
  - destruct items as [|x items]; [split; [now left|reflexivity]|].
    unfold invalid_body. cbn [truthy negb py_in].
    remember (x :: items) as l eqn:Hl.
    destruct (existsb (is_str "text") l) eqn:E1;
      [destruct (existsb (is_str "title") l) eqn:E2|]; cbn [negb]; split;
      try discriminate; try reflexivity.
    + apply existsb_is_str in E1. apply existsb_is_str in E2.
      intros [H|[(d & H & _)|[(l' & [= <-] & H)|(s' & H & _)]]];
        try discriminate. tauto.
    + intros _. right. right. left. exists l. split; [reflexivity|].
      intros [_ H]. apply existsb_is_str in H. congruence.
    + intros _. right. right. left. exists l. split; [reflexivity|].
      intros [H _]. apply existsb_is_str in H. congruence.
  - rewrite invalid_body_dict.
    destruct (dict_lookup "text" d) eqn:E1;
      [destruct (dict_lookup "title" d) eqn:E2|]; split;
      try discriminate; try reflexivity.
    + intros [H|[(d' & [= <-] & [H|H])|[(l & H & _)|(s' & H & _)]]];
        try congruence. destruct d; simpl in *; discriminate.
    + intros _. right. left. exists d. auto.
    + intros _. right. left. exists d. auto.
  - split; [discriminate|].
    intros [H|[(d & H & _)|[(l & H & _)|(s & H & _)]]]; discriminate.
Qed.

(** X2. The bodies the create validation rejects, exactly: the answer is
    the 400 error (with the table as it was) if and only if the body is
    falsy (null, false, 0, the empty string, list or object), or an object
    without [title] or without [text], or a list that lacks the string
    "text" or "title" among its elements, or a string that lacks one of
    them as a substring.  Every other body gets past the check or breaks
    it. *)
Theorem register_rejects_iff (now : Z) (db : table) (v : value) :
  serve (register (json_request v)) now db = (Response invalid_request 400, db)
  <->
  truthy v = false \/
  (exists d, v = VDict d /\
             (dict_lookup "title" d = None \/ dict_lookup "text" d = None)) \/
  (exists items, v = VList items /\
                 ~ (In (VStr "text") items /\ In (VStr "title") items)) \/
  (exists s, v = VStr s /\
             (substring_of "text" s = false \/ substring_of "title" s = false)).
Proof.
  rewrite <- invalid_body_true_iff.
  assert (Hnd : (exists d, v = VDict d) \/ (forall d, v <> VDict d)).
  { destruct v; try (right; intros d; discriminate). left. now eexists. }
  destruct Hnd as [(d & ->)|Hnd].
  - rewrite serve_register_dict, invalid_body_dict. unfold register_effect.
    destruct (dict_lookup "title" d) as [vti|];
      destruct (dict_lookup "text" d) as [vte|];
      try (split; reflexivity).
    split; [|discriminate].
    destruct (bind_param vti), (bind_param vte); discriminate.
  - rewrite (serve_register_nondict now db v Hnd).
    destruct (invalid_body v) as [e|[|]]; split;
      try reflexivity; try discriminate.
Qed.

Lemma register_rejects_iff_witness :
  serve (register (json_request (VList [VStr "title"]))) 7
        [mkRow 1 None None 3] =
  (Response invalid_request 400, [mkRow 1 None None 3]).
Proof.
  apply (proj2 (register_rejects_iff 7 [mkRow 1 None None 3]
                  (VList [VStr "title"]))).
  right. right. left. exists [VStr "title"]. split; [reflexivity|].
  intros [[H|[]] _]. discriminate.
Defined.

(** X3. When a replace succeeds, exactly: the answer is 204 if and only if
    the id has a record, the body parsed to an object, and the String
    columns accept what [get('title')] and [get('text')] return from it.
    In every other case (no record, no body, a body that does not parse,
    a number, a string or a list as body, a list or object as a field) the
    answer is the 404 error and the table is as it was. *)
Theorem put_succeeds_iff (k now : Z) (req : request) (db : table) :
  (status_of (fst (serve (put k req) now db)) = 204 <->
   exists r d ti te,
     select_by_key k db = Some r /\
     json req = inr (VDict d) /\
     bind_param (dict_get d "title") = inr ti /\
     bind_param (dict_get d "text") = inr te) /\
  (status_of (fst (serve (put k req) now db)) <> 204 ->
   serve (put k req) now db = (Response message_error 404, db)).
Proof.
  destruct (put_cases k now req db)
    as [(r & d & ti & te & Hsel & Hreq & Hti & Hte & Heq)|Heq].
  - rewrite Heq. simpl. split; [|congruence].
    split; [intros _|reflexivity]. now exists r, d, ti, te.
  - split; [|intros _; exact Heq].
    rewrite Heq. simpl. split; [discriminate|].
    intros (r & d & ti & te & Hsel & Hreq & Hti & Hte).
    rewrite serve_put in Heq. unfold put_effect in Heq.
    rewrite Hsel, Hreq, Hti, Hte in Heq. discriminate.
Qed.

Lemma put_succeeds_iff_witness :
  serve (put 1 (json_request (VStr "title"))) 9
        [mkRow 1 (Some "a"%string) None 3] =
  (Response message_error 404, [mkRow 1 (Some "a"%string) None 3]).
Proof.
  apply (proj2 (put_succeeds_iff 1 9 (json_request (VStr "title"))
                  [mkRow 1 (Some "a"%string) None 3])).
  simpl. lia.
Defined.

Lemma update_row_twice (k : Z) (ti te : cell) (t : table) :
  update_row k ti te (update_row k ti te t) = update_row k ti te t.
Proof.
  unfold update_row. rewrite map_map. apply map_ext. intros r.
  unfold has_key.
  destruct (Z.eqb_spec (col_note_id r) k) as [E|E]; simpl.
  - rewrite E, Z.eqb_refl. reflexivity.
  - destruct (Z.eqb_spec (col_note_id r) k); [contradiction|reflexivity].
Qed.

(** X4. Replace is idempotent, in its effect and in its answer: the same
    PUT served a second time, on the table the first one left, gives the
    answer of the first and leaves that table as it is. *)
Theorem put_idempotent (k now later : Z) (req : request) (db : table) :
  serve (put k req) later (snd (serve (put k req) now db)) =
  (fst (serve (put k req) now db), snd (serve (put k req) now db)).
Proof.
  destruct (put_cases k now req db)
    as [(r & d & ti & te & Hsel & Hreq & Hti & Hte & Heq)|Heq];
    rewrite Heq; simpl fst; simpl snd.
  - rewrite serve_put. unfold put_effect.
    rewrite (select_update_same k ti te db r Hsel), Hreq, Hti, Hte.
    simpl col_data. now rewrite update_row_twice.
  - rewrite serve_put in *. exact Heq.
Qed.

(** X5. Replace-then-get round trip: after a replace answered 204, the get
    of the same id answers 200 with the very object the replace sent. *)
Theorem put_then_get (k now later : Z) (req : request) (db : table)
        (body : value) :
  fst (serve (put k req) now db) = Response body 204 ->
  serve (note_by_note_id k) later (snd (serve (put k req) now db)) =
  (Response body 200, snd (serve (put k req) now db)).
Proof.
  destruct (put_cases k now req db)
    as [(r & d & ti & te & Hsel & Hreq & Hti & Hte & Heq)|Heq];
    rewrite Heq; simpl fst; simpl snd; intros [= <-].
  rewrite serve_get, (select_update_same k ti te db r Hsel). reflexivity.
Qed.

Lemma put_then_get_witness :
  let db := [mkRow 1 (Some "a"%string) (Some "b"%string) 3] in
  let req := json_request (VDict [("title"%string, VStr "z")]) in
  fst (serve (note_by_note_id 1) 10 (snd (serve (put 1 req) 9 db))) =
  Response (VDict [("note_id"%string, VInt 1);
                   ("title"%string, VStr "z");
                   ("text"%string, VNone);
                   ("data"%string, VDateTime 3)]) 200.
Proof.
  intros db req.
  rewrite (put_then_get 1 9 10 req db
             (VDict [("note_id"%string, VInt 1);
                     ("title"%string, VStr "z");
                     ("text"%string, VNone);
                     ("data"%string, VDateTime 3)]) eq_refl).
  reflexivity.
Defined.

(** X6. What a delete leaves behind: after a DELETE of an id, whether it
    found a record or not, a get of that id ends as an unhandled fault
    with status 500 (the AttributeError of the None dereferenced for an id
    within 64 bits, the OverflowError of the lookup for a larger one), a
    replace of it answers 404 whatever its body, and a get of any other id
    answers what it answered before. *)
Theorem delete_frame (k now later : Z) (db : table) :
  let db' := snd (serve (delete k) now db) in
  serve (note_by_note_id k) later db' =
    (Unhandled (if fits_int64 k then AttributeError else OverflowError), db') /\
  status_of (fst (serve (note_by_note_id k) later db')) = 500 /\
  (forall req, serve (put k req) later db' = (Response message_error 404, db')) /\
  (forall j, j <> k ->
             fst (serve (note_by_note_id j) later db') =
             fst (serve (note_by_note_id j) later db)).
Proof.
  intros db'.
  assert (Hgone : select_by_key k db' = None).
  { subst db'. rewrite serve_delete.
    destruct (select_by_key k db) eqn:Hsel; simpl;
      [apply select_delete_same|exact Hsel]. }
  assert (Hother : forall j, j <> k -> select_by_key j db' = select_by_key j db).
  { intros j Hj. subst db'. rewrite serve_delete.
    destruct (select_by_key k db); simpl;
      [now apply select_delete_other|reflexivity]. }
  split; [|split; [|split]].
  - now rewrite serve_get, Hgone.
  - rewrite serve_get, Hgone. unfold missing_fault.
    now destruct (fits_int64 k).
  - intros req. rewrite serve_put. unfold put_effect. now rewrite Hgone.
  - intros j Hj. rewrite !serve_get, (Hother j Hj).
    destruct (select_by_key j db); reflexivity.
Qed.

Lemma delete_frame_witness :
  let db := [mkRow 1 (Some "a"%string) None 3; mkRow 2 None None 4] in
  fst (serve (note_by_note_id 2) 10 (snd (serve (delete 1) 9 db))) =
  fst (serve (note_by_note_id 2) 10 db).
Proof.
  intros db.
  apply (proj2 (proj2 (proj2 (delete_frame 1 9 10 db)))). lia.
Defined.

(** The table after any create request: as before, or one row longer. *)
Lemma after_register_cases (req : request) (now : Z) (db : table) :
  after_register req now db = db \/
  exists cti cte, after_register req now db = insert_row cti cte now db.
Proof.
  unfold after_register. destruct req as [[e|v]]; [now left|].
  change (mkRequest (inr v)) with (json_request v).
  assert (Hnd : (exists d, v = VDict d) \/ (forall d, v <> VDict d)).
  { destruct v; try (right; intros d; discriminate). left. now eexists. }
  destruct Hnd as [(d & ->)|Hnd].
  - rewrite serve_register_dict. unfold register_effect.
    destruct (dict_lookup "title" d) as [vti|]; [|now left].
    destruct (dict_lookup "text" d) as [vte|]; [|now left].
    destruct (bind_param vti) as [e1|cti]; [now left|].
    destruct (bind_param vte) as [e2|cte]; [now left|].
    right. now exists cti, cte.
  - rewrite (serve_register_nondict now db v Hnd).
    destruct (invalid_body v) as [e|[|]]; now left.
Qed.

(** X7. A create shows up at the end of the listing: after a create with
    string title and text, the list operation answers the array it
    answered before with the new note's object appended as its last
    element. *)
Theorem create_extends_listing (now later : Z) (db : table)
        (d : list (string * value)) (T X : string) :
  dict_lookup "title" d = Some (VStr T) ->
  dict_lookup "text" d = Some (VStr X) ->
  exists old,
    fst (serve index later db) = Response (VList old) 200 /\
    fst (serve index later (after_register (json_request (VDict d)) now db)) =
    Response (VList (old ++ [VDict [("note_id"%string, VInt (next_rowid db));
                                    ("title"%string, VStr T);
                                    ("text"%string, VStr X);
                                    ("data"%string, VDateTime now)]])) 200.
Proof.
  intros HT HX. exists (map note_dict (map load db)).
  unfold after_register. rewrite (register_inserts now db d T X HT HX).
  rewrite !serve_index. simpl fst. simpl snd. split; [reflexivity|].
  unfold insert_row. now rewrite !map_app.
Qed.

Lemma create_extends_listing_witness :
  fst (serve index 9
         (after_register
            (json_request (VDict [("title"%string, VStr "T");
                                  ("text"%string, VStr "X")])) 8
            [mkRow 4 None None 3])) =
  Response (VList [record_of (mkRow 4 None None 3);
                   record_of (mkRow 5 (Some "T"%string) (Some "X"%string) 8)])
           200.
Proof.
  destruct (create_extends_listing 8 9 [mkRow 4 None None 3]
              [("title"%string, VStr "T"); ("text"%string, VStr "X")]
              "T" "X" eq_refl eq_refl) as (old & Hold & Hnew).
  rewrite Hnew. injection Hold as <-. reflexivity.
Defined.

(** X8. A create disturbs no stored note: whatever the create request and
    however it ends, the get of an id that had a record answers 200 with
    that same record afterwards. *)
Theorem create_frame (req : request) (now later j : Z) (db : table) (r : row) :
  select_by_key j db = Some r ->
  serve (note_by_note_id j) later (after_register req now db) =
  (Response (record_of r) 200, after_register req now db).
Proof.
  intros Hsel. rewrite serve_get.
  destruct (after_register_cases req now db) as [->|(cti & cte & ->)].
  - now rewrite Hsel.
  - rewrite select_insert_old, Hsel; [reflexivity|].
    intros ->. rewrite next_rowid_unused in Hsel. discriminate.
Qed.

Lemma create_frame_witness :
  fst (serve (note_by_note_id 1) 9
         (after_register
            (json_request (VDict [("note_id"%string, VInt 1);
                                  ("title"%string, VStr "T");
                                  ("text"%string, VStr "X")])) 8
            [mkRow 1 (Some "a"%string) None 3])) =
  Response (record_of (mkRow 1 (Some "a"%string) None 3)) 200.
Proof.
  rewrite (create_frame _ 8 9 1 [mkRow 1 (Some "a"%string) None 3]
             (mkRow 1 (Some "a"%string) None 3) eq_refl).
  reflexivity.
Defined.

Lemma delete_row_app (k : Z) (t u : table) :
  delete_row k (t ++ u) = delete_row k t ++ delete_row k u.
Proof. unfold delete_row. apply filter_app. Qed.

Lemma delete_newest (ti te : cell) (now : Z) (t : table) :
  delete_row (next_rowid t) (insert_row ti te now t) = t.
Proof.
  unfold insert_row. rewrite delete_row_app, delete_row_absent.
  - unfold delete_row, has_key. simpl. rewrite Z.eqb_refl. simpl.
    apply app_nil_r.
  - apply select_by_key_none, next_rowid_unused.
Qed.

(** X9. Ids are reused: when the note created last is deleted, the table
    is what it was before that note, and the next create gets the same
    [note_id] again; a get of that id then answers with the new note. *)
Theorem rowid_reused (now1 now2 now3 later : Z) (db : table)
        (d1 d2 : list (string * value)) (T1 X1 T2 X2 : string) :
  dict_lookup "title" d1 = Some (VStr T1) ->
  dict_lookup "text" d1 = Some (VStr X1) ->
  dict_lookup "title" d2 = Some (VStr T2) ->
  dict_lookup "text" d2 = Some (VStr X2) ->
  let id := next_rowid db in
  let db1 := after_register (json_request (VDict d1)) now1 db in
  let db2 := snd (serve (delete id) now2 db1) in
  let db3 := after_register (json_request (VDict d2)) now3 db2 in
  select_by_key id db1 = Some (mkRow id (Some T1) (Some X1) now1) /\
  db2 = db /\
  select_by_key id db3 = Some (mkRow id (Some T2) (Some X2) now3) /\
  fst (serve (note_by_note_id id) later db3) =
  Response (VDict [("note_id"%string, VInt id);
                   ("title"%string, VStr T2);
                   ("text"%string, VStr X2);
                   ("data"%string, VDateTime now3)]) 200.
Proof.
  intros H1t H1x H2t H2x id db1 db2 db3.
  assert (E1 : db1 = insert_row (Some T1) (Some X1) now1 db).
  { subst db1. unfold after_register.
    now rewrite (register_inserts now1 db d1 T1 X1 H1t H1x). }
  assert (S1 : select_by_key id db1 = Some (mkRow id (Some T1) (Some X1) now1)).
  { rewrite E1. apply select_insert_new. }
  assert (E2 : db2 = db).
  { subst db2. rewrite serve_delete, S1. simpl snd. rewrite E1.
    apply delete_newest. }
  assert (E3 : db3 = insert_row (Some T2) (Some X2) now3 db).
  { subst db3. rewrite E2. unfold after_register.
    now rewrite (register_inserts now3 db d2 T2 X2 H2t H2x). }
  assert (S3 : select_by_key id db3 = Some (mkRow id (Some T2) (Some X2) now3)).
  { rewrite E3. apply select_insert_new. }
  repeat split; try assumption.
  rewrite serve_get, S3. reflexivity.
Qed.

Lemma rowid_reused_witness :
  let post T X := json_request (VDict [("title"%string, VStr T);
                                       ("text"%string, VStr X)]) in
  let db1 := after_register (post "first" "a")%string 10 [] in
  let db2 := snd (serve (delete 1) 20 db1) in
  let db3 := after_register (post "second" "b")%string 30 db2 in
  select_by_key 1 db1 = Some (mkRow 1 (Some "first") (Some "a") 10)%string /\
  select_by_key 1 db3 = Some (mkRow 1 (Some "second") (Some "b") 30)%string.
Proof.
  intros post db1 db2 db3.
  pose proof (rowid_reused 10 20 30 40 []
                [("title"%string, VStr "first"); ("text"%string, VStr "a")]
                [("title"%string, VStr "second"); ("text"%string, VStr "b")]
                "first" "a" "second" "b"
                eq_refl eq_refl eq_refl eq_refl) as H.
  exact (conj (proj1 H) (proj1 (proj2 (proj2 H)))).
Defined.

(** ** Runs of requests *)

(** What one request of any kind can do to the table. *)
Lemma route_table_cases (c : call) (now : Z) (db : table) :
  snd (serve (route c) now db) = db \/
  (exists ti te, snd (serve (route c) now db) = insert_row ti te now db) \/
  (exists k ti te, snd (serve (route c) now db) = update_row k ti te db) \/
  (exists k, snd (serve (route c) now db) = delete_row k db).
Proof.
  destruct c as [|k|req|k req|k]; simpl route.
  - left. now rewrite serve_index.
  - left. rewrite serve_get. now destruct (select_by_key k db).
  - destruct (after_register_cases req now db) as [H|(ti & te & H)];
      unfold after_register in H; rewrite H; [now left|].
    right. left. now exists ti, te.
  - destruct (put_cases k now req db)
      as [(r & d & ti & te & _ & _ & _ & _ & Heq)|Heq]; rewrite Heq; simpl;
      [|now left].
    right. right. left. now exists k, ti, te.
  - rewrite serve_delete. destruct (select_by_key k db); simpl; [|now left].
    right. right. right. now exists k.
Qed.

Lemma keys_update_row (k : Z) (ti te : cell) (t : table) :
  keys (update_row k ti te t) = keys t.
Proof.
  unfold keys, update_row. rewrite map_map. apply map_ext.
  intros r. now destruct (has_key k r).
Qed.

Lemma StronglySorted_snoc (l : list Z) (a : Z) :
  StronglySorted Z.lt l -> Forall (fun x => x < a) l ->
  StronglySorted Z.lt (l ++ [a]).
Proof.
  induction 1 as [|x l Hs IH Hx]; intros Hall; simpl.
  - repeat constructor.
  - inversion_clear Hall as [|? ? Hxa Hla]. constructor; [now apply IH|].
    apply Forall_app. split; [assumption|]. now constructor.
Qed.

Lemma next_rowid_positive (t : table) :
  Forall (fun k => 1 <= k) (keys t) -> 1 <= next_rowid t.
Proof.
  unfold next_rowid. destruct t as [|r t]; simpl; [lia|].
  intros Hall. inversion_clear Hall as [|? ? Hr _].
  destruct (max_rowid t); lia.
Qed.

Lemma ascending_insert (ti te : cell) (now : Z) (t : table) :
  ascending t -> ascending (insert_row ti te now t).
Proof.
  intros [Hs Hpos]. unfold ascending, insert_row, keys in *.
  rewrite map_app. simpl. split.
  - apply StronglySorted_snoc; [assumption|].
    apply Forall_forall. intros x Hin. apply in_map_iff in Hin.
    destruct Hin as (r & <- & Hin). now apply next_rowid_above.
  - apply Forall_app. split; [assumption|].
    constructor; [|constructor]. now apply next_rowid_positive.
Qed.

Lemma ascending_delete (k : Z) (t : table) :
  ascending t -> ascending (delete_row k t).
Proof.
  unfold ascending, keys, delete_row. intros [Hs Hpos].
  induction t as [|r t IH]; simpl; [now split|].
  simpl in Hs, Hpos. apply StronglySorted_inv in Hs. destruct Hs as [Hs Hr].
  inversion_clear Hpos as [|? ? Hr1 Hpos'].
  destruct (IH Hs Hpos') as [IHs IHp].
  destruct (has_key k r); simpl; [now split|].
  split; [|now constructor].
  constructor; [assumption|].
  apply Forall_forall. intros x Hin. apply in_map_iff in Hin.
  destruct Hin as (r' & <- & Hin). apply filter_In in Hin.
  rewrite Forall_forall in Hr. apply Hr. apply in_map. tauto.
Qed.

Lemma ascending_step (c : call) (now : Z) (db : table) :
  ascending db -> ascending (snd (serve (route c) now db)).
Proof.
  intros Hasc.
  destruct (route_table_cases c now db)
    as [->|[(ti & te & ->)|[(k & ti & te & ->)|(k & ->)]]].
  - assumption.
  - now apply ascending_insert.
  - unfold ascending. now rewrite keys_update_row.
  - now apply ascending_delete.
Qed.

Lemma ascending_primary_key (t : table) : ascending t -> primary_key t.
Proof.
  unfold ascending, primary_key. intros [Hs _].
  induction Hs as [|x l Hs IH Hx]; constructor; [|assumption].
  intros Hin. rewrite Forall_forall in Hx. specialize (Hx x Hin). lia.
Qed.

(** X10. The order of the table is kept by every request: if the rows are
    in strictly ascending order of [note_id], with ids from 1 up, they are
    so after any run of requests of the five kinds, however each ends.
    On such a table no two notes share an id, and the list operation
    answers the notes in ascending order of [note_id].  The empty table is
    in that order, so every table the service reaches from it is. *)
Theorem runs_keep_ascending (cs : list (call * Z)) (later : Z) (db : table) :
  ascending db ->
  let t := serve_all cs db in
  StronglySorted Z.lt (keys t) /\
  Forall (fun k => 1 <= k) (keys t) /\
  NoDup (keys t) /\
  fst (serve index later t) = Response (VList (map record_of t)) 200.
Proof.
  intros Hasc t.
  assert (Ht : ascending t).
  { subst t. revert db Hasc.
    induction cs as [|[c now] rest IH]; intros db Hasc; simpl; [assumption|].
    apply IH. now apply ascending_step. }
  destruct Ht as [Hs Hp].
  split; [assumption|]. split; [assumption|].
  split; [now apply (ascending_primary_key t)|].
  rewrite serve_index, map_map. reflexivity.
Qed.

Lemma runs_keep_ascending_witness :
  let post T := json_request (VDict [("title"%string, VStr T);
                                     ("text"%string, VNone)]) in
  let cs := [(POST_notes (post "a"%string), 1);
             (POST_notes (post "b"%string), 2);
             (POST_notes (post "c"%string), 3);
             (DELETE_note 2, 4);
             (PUT_note 3 (json_request (VInt 0)), 5);
             (POST_notes (post "d"%string), 6)] in
  keys (serve_all cs []) = [1; 3; 4] /\
  StronglySorted Z.lt (keys (serve_all cs [])).
Proof.
  intros post cs. split; [reflexivity|].
  apply (runs_keep_ascending cs 0 []).
  split; constructor.
Defined.

Lemma select_step_kept (c : call) (now k : Z) (db : table) (r : row) :
  c <> DELETE_note k ->
  select_by_key k db = Some r ->
  exists r', select_by_key k (snd (serve (route c) now db)) = Some r' /\
             col_data r' = col_data r.
Proof.
  intros Hc Hsel. destruct c as [|j|req|j req|j]; simpl route.
  - rewrite serve_index. now exists r.
  - rewrite serve_get. exists r. now destruct (select_by_key j db).
  - destruct (after_register_cases req now db) as [H|(ti & te & H)];
      unfold after_register in H; rewrite H; [now exists r|].
    exists r. split; [|reflexivity].
    rewrite select_insert_old; [assumption|].
    intros ->. rewrite next_rowid_unused in Hsel. discriminate.
  - destruct (put_cases j now req db)
      as [(r0 & d & ti & te & _ & _ & _ & _ & Heq)|Heq]; rewrite Heq; simpl;
      [|now exists r].
    destruct (Z.eq_dec j k) as [->|Hjk].
    + eexists. split; [now apply select_update_same with (1 := Hsel)|].
      reflexivity.
    + exists r. split; [|reflexivity].
      rewrite select_update_other; [assumption|congruence].
  - assert (Hjk : k <> j) by congruence.
    rewrite serve_delete. destruct (select_by_key j db); simpl;
      [|now exists r].
    exists r. split; [|reflexivity]. now rewrite select_delete_other.
Qed.

(** X11. A note keeps its creation timestamp for as long as it is not
    deleted: over any run of requests that holds no DELETE of the id, a
    note that was stored is still stored at the end, under the same id and
    with the [data] it had, whatever creates, replaces and deletes of
    other ids the run holds. *)
Theorem data_kept_until_deleted (cs : list (call * Z)) (k : Z) (db : table)
        (r : row) :
  select_by_key k db = Some r ->
  (forall c now, In (c, now) cs -> c <> DELETE_note k) ->
  exists r', select_by_key k (serve_all cs db) = Some r' /\
             col_note_id r' = k /\
             col_data r' = col_data r.
Proof.
  revert db r. induction cs as [|[c now] rest IH]; intros db r Hsel Hno; simpl.
  - exists r. split; [assumption|]. split; [|reflexivity].
    now apply select_by_key_some in Hsel.
  - destruct (select_step_kept c now k db r) as (r1 & Hsel1 & Hdata1);
      [apply (Hno c now); now left|assumption|].
    destruct (IH _ r1 Hsel1) as (r' & Hsel' & Hk & Hdata').
    + intros c' now' Hin. apply (Hno c' now'). now right.
    + exists r'. split; [assumption|]. split; [assumption|congruence].
Qed.

Lemma data_kept_until_deleted_witness :
  let put_title T := PUT_note 1 (json_request
                                   (VDict [("title"%string, VStr T)])) in
  let cs := [(put_title "x"%string, 5); (DELETE_note 2, 6);
             (POST_notes (json_request VNone), 7);
             (put_title "y"%string, 8)] in
  exists r', select_by_key 1 (serve_all cs [mkRow 1 None None 3;
                                            mkRow 2 None None 4]) = Some r' /\
             col_note_id r' = 1 /\ col_data r' = 3.
Proof.
  intros put_title cs.
  apply (data_kept_until_deleted cs 1 [mkRow 1 None None 3; mkRow 2 None None 4]
           (mkRow 1 None None 3) eq_refl).
  intros c now Hin. simpl in Hin.
  destruct Hin as [H|[H|[H|[H|[]]]]]; injection H as <- _; discriminate.
Defined.

(** X12. The two GET views never write: dropping every list and
    get-by-id request from a run of requests, wherever they stand and
    however they end (the fault of a get on a missing id included),
    leaves the table the run ends with unchanged. *)
Theorem reads_change_nothing (cs : list (call * Z)) (db : table) :
  serve_all (filter (fun p => negb (is_read (fst p))) cs) db = serve_all cs db.
Proof.
  revert db. induction cs as [|[c now] rest IH]; intros db; simpl;
    [reflexivity|].
  destruct c as [|k|req|k req|k]; simpl; try apply IH.
  rewrite serve_get. destruct (select_by_key k db); apply IH.
Qed.

Lemma update_delete_commute (j k : Z) (ti te : cell) (t : table) :
  update_row j ti te (delete_row k t) = delete_row k (update_row j ti te t).
Proof.
  unfold update_row, delete_row.
  set (f := fun r => if has_key j r
                     then mkRow (col_note_id r) ti te (col_data r) else r).
  assert (Hf : forall r, has_key k (f r) = has_key k r).
  { intros r. unfold f. now destruct (has_key j r). }
  induction t as [|r t IH]; simpl; [reflexivity|].
  rewrite Hf. destruct (has_key k r); simpl; now rewrite IH.
Qed.

Lemma select_after_delete_other (j k now : Z) (db : table) :
  j <> k ->
  select_by_key j (snd (serve (delete k) now db)) = select_by_key j db.
Proof.
  intros Hjk. rewrite serve_delete.
  destruct (select_by_key k db); simpl;
    [now apply select_delete_other|reflexivity].
Qed.

Lemma put_failure_transfers (j n n' : Z) (req : request) (db db2 : table) :
  select_by_key j db2 = select_by_key j db ->
  serve (put j req) n db = (Response message_error 404, db) ->
  serve (put j req) n' db2 = (Response message_error 404, db2).
Proof.
  intros Hsel. rewrite !serve_put. unfold put_effect. rewrite Hsel.
  destruct (select_by_key j db); [|reflexivity].
  destruct (json req) as [e|v]; [reflexivity|].
  destruct v; try reflexivity.
  destruct (bind_param (dict_get entries "title")); [reflexivity|].
  destruct (bind_param (dict_get entries "text")); [reflexivity|].
  discriminate.
Qed.

(** X13. A replace and a delete of different ids commute: served in
    either order they leave the same table, and each gets the answer it
    would have got had it been served first. *)
Theorem put_delete_commute (j k n1 n2 n3 n4 : Z) (req : request)
        (db : table) :
  j <> k ->
  let put_first := serve (put j req) n1 db in
  let del_second := serve (delete k) n2 (snd put_first) in
  let del_first := serve (delete k) n3 db in
  let put_second := serve (put j req) n4 (snd del_first) in
  snd del_second = snd put_second /\
  fst put_second = fst put_first /\
  fst del_second = fst del_first.
Proof.
  intros Hjk put_first del_second del_first put_second.
  subst put_first del_second del_first put_second.
  pose proof (select_after_delete_other j k n3 db Hjk) as Hj.
  destruct (put_cases j n1 req db)
    as [(r & d & ti & te & Hsel & Hreq & Hti & Hte & Heq)|Heq]; rewrite Heq;
    simpl fst; simpl snd.
  - assert (Hput2 : serve (put j req) n4 (snd (serve (delete k) n3 db)) =
                    (Response (note_dict (load (mkRow j ti te (col_data r)))) 204,
                     update_row j ti te (snd (serve (delete k) n3 db)))).
    { rewrite serve_put. unfold put_effect.
      now rewrite Hj, Hsel, Hreq, Hti, Hte. }
    rewrite Hput2. simpl fst. simpl snd.
    rewrite !serve_delete, select_update_other by congruence.
    destruct (select_by_key k db); simpl; repeat split.
    symmetry. apply update_delete_commute.
  - rewrite (put_failure_transfers j n1 n4 req db _ Hj Heq).
    simpl. rewrite !serve_delete.
    destruct (select_by_key k db); repeat split.
Qed.

Lemma put_delete_commute_witness :
  let db := [mkRow 1 (Some "a"%string) None 3; mkRow 2 None None 4] in
  let req := json_request (VDict [("text"%string, VStr "t")]) in
  snd (serve (delete 2) 6 (snd (serve (put 1 req) 5 db))) =
  snd (serve (put 1 req) 8 (snd (serve (delete 2) 7 db))).
Proof.
  intros db req.
  apply (put_delete_commute 1 2 5 6 7 8 req db). lia.
Defined.
